(** * script.py: the apartment-price checker, embedded and verified

    The script is a straight line of effects: it sets up two loggers, reads
    one command-line argument and one environment variable, builds the
    configuration objects of the browser_use library, runs the agent once,
    waits, and reports the agent's final result to a console handler and to a
    results file.

    The embedding keeps that shape.  Effects are threaded through a small
    state-and-exception monad [Script]; the state [World] holds the
    chronological trace of everything the script does, the text of the
    results file and the text written to the console stream.  Everything the
    script cannot decide itself (the command line as argparse sees it, the
    environment, the file left by an earlier run, the clock, and the
    behaviour of the agent) is an [Env] the script runs in.

    Python [str] values are modelled by [string]: the UTF-8 bytes of the
    text.  Concatenation, emptiness and containment of text agree with
    concatenation, emptiness and containment of its UTF-8 encoding. *)

From Stdlib Require Import String Ascii List ZArith QArith Bool Lia.
Import ListNotations.

Open Scope string_scope.
Open Scope Z_scope.

(** ** Python values the script tests and joins *)

Module Py.

(** [bool(s)] for a [str]. *)
Definition truthy_str (s : string) : bool :=
  match s with
  | EmptyString => false
  | String _ _ => true
  end.

(** [bool(o)] for an [Optional[str]]: [None] and [''] are falsy. *)
Definition truthy (o : option string) : bool :=
  match o with
  | None => false
  | Some s => truthy_str s
  end.

(** The line feed character. *)
Definition nl : string := String (ascii_of_nat 10) EmptyString.

(** ["\n".join(ls)]: the lines of a triple-quoted literal. *)
Fixpoint join_lines (ls : list string) : string :=
  match ls with
  | [] => EmptyString
  | [l] => l
  | l :: rest => l ++ nl ++ join_lines rest
  end.

(** [needle in hay]. *)
Fixpoint contains (needle hay : string) : bool :=
  String.prefix needle hay ||
  match hay with
  | EmptyString => false
  | String _ hay' => contains needle hay'
  end.

(** [s.endswith(c)] and [s.startswith(c)] for a one-character [c]. *)
Fixpoint endswith (s : string) (c : ascii) : bool :=
  match s with
  | EmptyString => false
  | String a EmptyString => Ascii.eqb a c
  | String _ s' => endswith s' c
  end.

Definition startswith (s : string) (c : ascii) : bool :=
  match s with
  | EmptyString => false
  | String a _ => Ascii.eqb a c
  end.

(** [os.path.join(a, b)] on POSIX, for two components. *)
Definition path_join (a b : string) : string :=
  if startswith b "/" then b
  else if negb (truthy_str a) || endswith a "/" then a ++ b
  else a ++ "/" ++ b.

End Py.

(** The declarative reading of [in]: the needle sits between two pieces. *)
Definition Substring (needle hay : string) : Prop :=
  exists before after, hay = before ++ needle ++ after.

(** ** Exceptions, objects of the library, and the trace *)

Inductive PyExn : Type :=
| ValueError (msg : string)
| SystemExit (code : Z)          (* argparse leaving on a bad command line or -h *)
| LibraryError (what : string).  (* whatever browser_use raises *)

Inductive FileMode : Type := mode_w | mode_a.

Inductive HandlerId : Type := console_handler | file_handler.

(** logging levels, as the integers the logging module compares. *)
Definition INFO : Z := 20.
Definition WARNING : Z := 30.

Record LogRecord : Type := mkLogRecord {
  name : string;
  levelno : Z;
  asctime : string;
  message : string
}.

Record ChatGoogle : Type := mkChatGoogle {
  model : string;
  temperature : Q
}.

Record BrowserProfile : Type := mkBrowserProfile {
  storage_state : string;
  wait_for_network_idle_page_load_time : Q;
  highlight_elements : bool;
  highlight_clicks : bool;
  debug : bool
}.

Record Browser : Type := mkBrowser {
  browser_profile : BrowserProfile;
  headless : bool
}.

Record Agent : Type := mkAgent {
  task : string;
  llm : ChatGoogle;
  browser : Browser
}.

(** What [agent.run()] returns; the script only ever asks it for
    [final_result()]. *)
Record AgentHistoryList : Type := mkHistory {
  final_result : option string
}.

(** What [parser.parse_args()] does with the command line: it yields
    [args.url], or leaves the process through [SystemExit]. *)
Inductive ParseOutcome : Type :=
| Parsed (url : string)
| Exits (code : Z).

Inductive Event : Type :=
| EOpen (path : string) (mode : FileMode)
| ELoadDotenv
| EPrint (text : string)
| EEmit (h : HandlerId) (r : LogRecord)
| EParseArgs
| ENewChatGoogle (c : ChatGoogle)
| ENewBrowserProfile (p : BrowserProfile)
| ENewBrowser (b : Browser)
| ENewAgent (a : Agent)
| ERun (a : Agent)
| ESleep (seconds : Z)
| EFinalResult (h : AgentHistoryList).

(** ** The world and the environment

    The trace holds what the script itself does.  The console handler sits
    on the logger named browser_use, which is also the library's own name
    space; what the library logs there by itself while it works is its
    business and is not part of the trace. *)

Record World : Type := mkWorld {
  trace : list Event;       (* what happened, oldest first *)
  log_file : list string;   (* the lines of automation_results.log *)
  stderr : list string      (* the lines the console handler wrote *)
}.

Record Env : Type := mkEnv {
  dirname_abspath_file : string;   (* os.path.dirname(os.path.abspath(__file__)) *)
  abspath_dirname_file : string;   (* os.path.abspath(os.path.dirname(__file__)) *)
  getcwd : string;                 (* os.getcwd() *)
  old_log : list string;           (* the results file as earlier runs left it *)
  parse_args : ParseOutcome;       (* parser.parse_args() *)
  GOOGLE_API_KEY : option string;  (* os.getenv('GOOGLE_API_KEY'), .env loaded *)
  run : Agent -> PyExn + AgentHistoryList;   (* await agent.run() *)
  clock : string                   (* %(asctime)s of a record; only the file prints it *)
}.

Definition initial_world (env : Env) : World :=
  {| trace := []; log_file := old_log env; stderr := [] |}.

(** ** The monad of the script: state and exceptions *)

Definition Script (A : Type) : Type := World -> World * (PyExn + A).

Definition ret {A} (a : A) : Script A := fun w => (w, inr a).

Definition raise {A} (e : PyExn) : Script A := fun w => (w, inl e).

Definition bind {A B} (c : Script A) (k : A -> Script B) : Script B :=
  fun w =>
    match c w with
    | (w', inr a) => k a w'
    | (w', inl e) => (w', inl e)
    end.

Notation "x <- c ;; k" := (bind c (fun x => k))
  (at level 61, c at next level, right associativity).
Notation "c ;; k" := (bind c (fun _ => k))
  (at level 61, right associativity).

Definition record_event (e : Event) : Script unit :=
  fun w => ({| trace := trace w ++ [e];
               log_file := log_file w;
               stderr := stderr w |}, inr tt).

Definition print (text : string) : Script unit := record_event (EPrint text).

Definition sleep (seconds : Z) : Script unit := record_event (ESleep seconds).

(** ** logging *)

Record Handler : Type := mkHandler {
  hid : HandlerId;
  fmt : LogRecord -> string
}.

Record Logger : Type := mkLogger {
  lname : string;
  level : Z;
  handlers : list Handler;
  propagate : bool
}.

(** [open(path, mode)]: ['w'] empties the file, ['a'] keeps it. *)
Definition open_log (path : string) (mode : FileMode) : Script unit :=
  fun w => ({| trace := trace w ++ [EOpen path mode];
               log_file := match mode with mode_w => [] | mode_a => log_file w end;
               stderr := stderr w |}, inr tt).

(** [Handler.emit]: format the record and write the line to the handler's
    stream. *)
Definition emit (h : Handler) (r : LogRecord) : Script unit :=
  fun w => ({| trace := trace w ++ [EEmit (hid h) r];
               log_file := match hid h with
                           | file_handler => log_file w ++ [fmt h r]
                           | console_handler => log_file w
                           end;
               stderr := match hid h with
                         | console_handler => stderr w ++ [fmt h r]
                         | file_handler => stderr w
                         end |}, inr tt).

Fixpoint callHandlers (hs : list Handler) (r : LogRecord) : Script unit :=
  match hs with
  | [] => ret tt
  | h :: hs' => emit h r ;; callHandlers hs' r
  end.

(** [Logger.makeRecord]: the record of a message logged at time [now]. *)
Definition makeRecord (lg : Logger) (lvl : Z) (now msg : string) : LogRecord :=
  {| name := lname lg; levelno := lvl; asctime := now; message := msg |}.

(** [Logger.log(lvl, msg)]: dropped below the logger's level, otherwise
    handed to each handler of the logger.  Both loggers of the script have
    [propagate = False], so no ancestor's handler is involved. *)
Definition log (lg : Logger) (lvl : Z) (now msg : string) : Script unit :=
  if level lg <=? lvl
  then callHandlers (handlers lg) (makeRecord lg lvl now msg)
  else ret tt.

Definition info (lg : Logger) (now msg : string) : Script unit := log lg INFO now msg.
Definition warning (lg : Logger) (now msg : string) : Script unit := log lg WARNING now msg.

(** ** The script, top to bottom *)

(** Lines 17-21 and 31: the console logger of the library's name space. *)
Definition console_fmt (r : LogRecord) : string :=
  "INFO     [" ++ name r ++ "] " ++ message r.

Definition logger : Logger :=
  {| lname := "browser_use";
     level := INFO;
     handlers := [ {| hid := console_handler; fmt := console_fmt |} ];
     propagate := false |}.

(** Lines 24-28 and 32: the results logger; its handler writes the file. *)
Definition file_fmt (r : LogRecord) : string :=
  asctime r ++ " - " ++ message r.

Definition file_logger : Logger :=
  {| lname := "results";
     level := INFO;
     handlers := [ {| hid := file_handler; fmt := file_fmt |} ];
     propagate := false |}.

(** Lines 11-12. *)
Definition log_filename (env : Env) : string :=
  Py.path_join (dirname_abspath_file env) "automation_results.log".

(** [str(x)] inside an f-string, for an [Optional[str]]. *)
Definition fstr (o : option string) : string :=
  match o with
  | Some s => s
  | None => "None"
  end.

(** Lines 73-94: the task, with the URL interpolated in its third line. *)
Definition task_prompt (url_to_check : string) : string :=
  Py.join_lines
    [ "Zadanie: Analiza cen mieszkań na stronie dewelopera";
      EmptyString;
      "1. Odwiedź stronę: " ++ url_to_check;
      EmptyString;
      "2. Cel analizy: Znajdź konkretne ceny mieszkań w ofercie.";
      EmptyString;
      "3. Kryteria akceptacji cen:";
      "   ✓ Ceny muszą być dokładne (np. '450 000 PLN', '500 000 złotych')";
      "   ✗ NIE akceptuj zakresów cenowych (np. 'ceny od 500 000 PLN')";
      "   ✗ NIE akceptuj wezwań do kontaktu (np. 'zapytaj o cenę', 'wyślij zapytanie', 'skontaktuj się')";
      EmptyString;
      "4. Gdzie szukać cen:";
      "   - W linkach do konkretnych ofert";
      "   - W tabelach z ofertami";
      "   - W opisach mieszkań";
      "   - W cennikach";
      EmptyString;
      "5. Format odpowiedzi:";
      "   - Jeśli znaleziono konkretne ceny: 'Dostępne ceny mieszkań'";
      "   - Jeśli nie znaleziono konkretnych cen: 'Brak dostępnych cen mieszkań'";
      EmptyString;
      "Uwaga: Skupiaj się tylko na konkretnych, jawnie podanych cenach mieszkań." ].

(** Calls into argparse and browser_use. *)
Definition parser_parse_args (env : Env) : Script string :=
  record_event EParseArgs ;;
  match parse_args env with
  | Parsed url => ret url
  | Exits code => raise (SystemExit code)
  end.

Definition new_ChatGoogle (c : ChatGoogle) : Script ChatGoogle :=
  record_event (ENewChatGoogle c) ;; ret c.

Definition new_BrowserProfile (p : BrowserProfile) : Script BrowserProfile :=
  record_event (ENewBrowserProfile p) ;; ret p.

Definition new_Browser (b : Browser) : Script Browser :=
  record_event (ENewBrowser b) ;; ret b.

Definition new_Agent (a : Agent) : Script Agent :=
  record_event (ENewAgent a) ;; ret a.

Definition agent_run (env : Env) (a : Agent) : Script AgentHistoryList :=
  record_event (ERun a) ;;
  match run env a with
  | inr history => ret history
  | inl e => raise e
  end.

Definition history_final_result (h : AgentHistoryList) : Script (option string) :=
  record_event (EFinalResult h) ;; ret (final_result h).

(** Lines 38-127. *)
Definition main (env : Env) : Script unit :=
  url_to_check <- parser_parse_args env ;;
  let api_key := GOOGLE_API_KEY env in
  (if negb (Py.truthy api_key)
   then raise (ValueError
          "GOOGLE_API_KEY environment variable not set or .env file not found.")
   else ret tt) ;;
  llm <- new_ChatGoogle
           {| model := "gemini-2.5-flash"; temperature := 0.1 |} ;;
  profile <- new_BrowserProfile
               {| storage_state := "cookies.json";
                  wait_for_network_idle_page_load_time := 5.0;
                  highlight_elements := true;
                  highlight_clicks := true;
                  debug := true |} ;;
  browser <- new_Browser {| browser_profile := profile; headless := false |} ;;
  agent <- new_Agent
             {| task := task_prompt url_to_check; llm := llm; browser := browser |} ;;
  print (Py.nl ++
    "Starting analysis - browser window should open with highlighted elements...") ;;
  print "Looking for price information - this may take a few moments..." ;;
  history <- agent_run env agent ;;
  print (Py.nl ++
    "Analysis complete - keeping browser window open for 10 seconds to view highlights...") ;;
  sleep 10 ;;
  final_result <- history_final_result history ;;
  if Py.truthy final_result
  then
    info file_logger (clock env)
      ("URL: " ++ url_to_check ++ " - Result: " ++ fstr final_result) ;;
    info logger (clock env) ("📄 Result: " ++ fstr final_result) ;;
    info logger (clock env) "✅ Task completed" ;;
    info logger (clock env) "✅ Successfully"
  else
    warning file_logger (clock env)
      ("URL: " ++ url_to_check ++ " - Result: Brak dostępnych cen mieszkań") ;;
    warning logger (clock env) "❌ Task failed".

(** The whole module: lines 10-36 run on import, lines 129-135 because the
    file is the program.  The FileHandler of line 26 opens its file when it is
    made.  [asyncio.run(main())] runs the one coroutine to its end and lets
    an exception of [main] through unchanged. *)
Definition script (env : Env) : Script unit :=
  open_log (log_filename env) mode_w ;;
  record_event ELoadDotenv ;;
  info logger (clock env) "BrowserUse logging setup complete with level info" ;;
  info logger (clock env)
    "Anonymized telemetry enabled. See https://docs.browser-use.com/development/telemetry for more information." ;;
  print ("Loading environment variables from: " ++ abspath_dirname_file env ++ "/.env") ;;
  print ("Current Working Directory: " ++ getcwd env) ;;
  print ("Log file will be saved to: " ++ log_filename env) ;;
  main env.

(** One invocation of the program. *)
Definition run_process (env : Env) : World * (PyExn + unit) :=
  script env (initial_world env).

(** The exit status the interpreter reports for the way the script ended. *)
Definition exit_status (r : PyExn + unit) : Z :=
  match r with
  | inr _ => 0
  | inl (SystemExit code) => code
  | inl _ => 1
  end.

(** ** Reading a trace *)

Definition HandlerId_eqb (a b : HandlerId) : bool :=
  match a, b with
  | console_handler, console_handler => true
  | file_handler, file_handler => true
  | _, _ => false
  end.

(** The records a handler received, oldest first. *)
Fixpoint sink (h : HandlerId) (tr : list Event) : list LogRecord :=
  match tr with
  | [] => []
  | EEmit h' r :: tr' =>
      if HandlerId_eqb h h' then r :: sink h tr' else sink h tr'
  | _ :: tr' => sink h tr'
  end.

(** Objects of the library: the model client, the browser profile, the
    browser, the agent. *)
Definition is_construction (e : Event) : bool :=
  match e with
  | ENewChatGoogle _ | ENewBrowserProfile _ | ENewBrowser _ | ENewAgent _ => true
  | _ => false
  end.

Definition is_run (e : Event) : bool :=
  match e with ERun _ => true | _ => false end.

Definition is_sleep (e : Event) : bool :=
  match e with ESleep _ => true | _ => false end.

Definition is_final_result (e : Event) : bool :=
  match e with EFinalResult _ => true | _ => false end.

Definition is_emit (e : Event) : bool :=
  match e with EEmit _ _ => true | _ => false end.

Definition count_runs (tr : list Event) : nat := List.length (filter is_run tr).

(** The same environment with another credential, another old results file. *)
Definition with_key (env : Env) (k : option string) : Env :=
  {| dirname_abspath_file := dirname_abspath_file env;
     abspath_dirname_file := abspath_dirname_file env;
     getcwd := getcwd env;
     old_log := old_log env;
     parse_args := parse_args env;
     GOOGLE_API_KEY := k;
     run := run env;
     clock := clock env |}.

Definition with_old_log (env : Env) (old : list string) : Env :=
  {| dirname_abspath_file := dirname_abspath_file env;
     abspath_dirname_file := abspath_dirname_file env;
     getcwd := getcwd env;
     old_log := old;
     parse_args := parse_args env;
     GOOGLE_API_KEY := GOOGLE_API_KEY env;
     run := run env;
     clock := clock env |}.

(** ** The pieces of a trace

    What the script has done by the time [main] is entered, the objects it
    builds, and what each path through [main] adds. *)

Definition startup (env : Env) : list Event :=
  [ EOpen (log_filename env) mode_w;
    ELoadDotenv;
    EEmit console_handler
      (makeRecord logger INFO (clock env)
         "BrowserUse logging setup complete with level info");
    EEmit console_handler
      (makeRecord logger INFO (clock env)
         "Anonymized telemetry enabled. See https://docs.browser-use.com/development/telemetry for more information.");
    EPrint ("Loading environment variables from: " ++ abspath_dirname_file env ++ "/.env");
    EPrint ("Current Working Directory: " ++ getcwd env);
    EPrint ("Log file will be saved to: " ++ log_filename env) ].

Definition startup_stderr : list string :=
  [ "INFO     [browser_use] BrowserUse logging setup complete with level info";
    "INFO     [browser_use] Anonymized telemetry enabled. See https://docs.browser-use.com/development/telemetry for more information." ].

Definition the_llm : ChatGoogle :=
  {| model := "gemini-2.5-flash"; temperature := 0.1 |}.

Definition the_profile : BrowserProfile :=
  {| storage_state := "cookies.json";
     wait_for_network_idle_page_load_time := 5.0;
     highlight_elements := true;
     highlight_clicks := true;
     debug := true |}.

Definition the_browser : Browser :=
  {| browser_profile := the_profile; headless := false |}.

Definition the_agent (url : string) : Agent :=
  {| task := task_prompt url; llm := the_llm; browser := the_browser |}.

Definition configured (url : string) : list Event :=
  [ EParseArgs;
    ENewChatGoogle the_llm;
    ENewBrowserProfile the_profile;
    ENewBrowser the_browser;
    ENewAgent (the_agent url);
    EPrint (Py.nl ++
      "Starting analysis - browser window should open with highlighted elements...");
    EPrint "Looking for price information - this may take a few moments..." ].

Definition awaited (url : string) (h : AgentHistoryList) : list Event :=
  [ ERun (the_agent url);
    EPrint (Py.nl ++
      "Analysis complete - keeping browser window open for 10 seconds to view highlights...");
    ESleep 10;
    EFinalResult h ].

Definition report_found (env : Env) (url result : string) : list Event :=
  [ EEmit file_handler
      (makeRecord file_logger INFO (clock env)
         ("URL: " ++ url ++ " - Result: " ++ result));
    EEmit console_handler
      (makeRecord logger INFO (clock env) ("📄 Result: " ++ result));
    EEmit console_handler (makeRecord logger INFO (clock env) "✅ Task completed");
    EEmit console_handler (makeRecord logger INFO (clock env) "✅ Successfully") ].

Definition report_nothing (env : Env) (url : string) : list Event :=
  [ EEmit file_handler
      (makeRecord file_logger WARNING (clock env)
         ("URL: " ++ url ++ " - Result: Brak dostępnych cen mieszkań"));
    EEmit console_handler (makeRecord logger WARNING (clock env) "❌ Task failed") ].

(** Every invocation takes one of the five paths. *)
Inductive Path (env : Env) : Type :=
| path_exits (code : Z) :
    parse_args env = Exits code -> Path env
| path_no_key (url : string) :
    parse_args env = Parsed url ->
    Py.truthy (GOOGLE_API_KEY env) = false -> Path env
| path_raises (url : string) (e : PyExn) :
    parse_args env = Parsed url ->
    Py.truthy (GOOGLE_API_KEY env) = true ->
    run env (the_agent url) = inl e -> Path env
| path_found (url : string) (h : AgentHistoryList) :
    parse_args env = Parsed url ->
    Py.truthy (GOOGLE_API_KEY env) = true ->
    run env (the_agent url) = inr h ->
    Py.truthy (final_result h) = true -> Path env
| path_nothing (url : string) (h : AgentHistoryList) :
    parse_args env = Parsed url ->
    Py.truthy (GOOGLE_API_KEY env) = true ->
    run env (the_agent url) = inr h ->
    Py.truthy (final_result h) = false -> Path env.

(** ** What a sink receives *)

(** Both streams hold a line with the property [P]. *)
Definition both_sinks_receive (w : World) (P : string -> Prop) : Prop :=
  (exists line, In line (stderr w) /\ P line) /\
  (exists line, In line (log_file w) /\ P line).

(** The two pieces of the task around the URL. *)
Definition task_head : string :=
  Py.join_lines
    [ "Zadanie: Analiza cen mieszkań na stronie dewelopera";
      EmptyString;
      "1. Odwiedź stronę: " ].

Definition task_tail : string :=
  Py.nl ++
  Py.join_lines
    [ EmptyString;
      "2. Cel analizy: Znajdź konkretne ceny mieszkań w ofercie.";
      EmptyString;
      "3. Kryteria akceptacji cen:";
      "   ✓ Ceny muszą być dokładne (np. '450 000 PLN', '500 000 złotych')";
      "   ✗ NIE akceptuj zakresów cenowych (np. 'ceny od 500 000 PLN')";
      "   ✗ NIE akceptuj wezwań do kontaktu (np. 'zapytaj o cenę', 'wyślij zapytanie', 'skontaktuj się')";
      EmptyString;
      "4. Gdzie szukać cen:";
      "   - W linkach do konkretnych ofert";
      "   - W tabelach z ofertami";
      "   - W opisach mieszkań";
      "   - W cennikach";
      EmptyString;
      "5. Format odpowiedzi:";
      "   - Jeśli znaleziono konkretne ceny: 'Dostępne ceny mieszkań'";
      "   - Jeśli nie znaleziono konkretnych cen: 'Brak dostępnych cen mieszkań'";
      EmptyString;
      "Uwaga: Skupiaj się tylko na konkretnych, jawnie podanych cenach mieszkań." ].

(** An invocation to try the script on: the URL of the documentation, a
    credential, a results file with a line of an earlier run, and an agent
    that returns [result]. *)
Definition example_env (key result : option string) : Env :=
  {| dirname_abspath_file := "/srv/checker";
     abspath_dirname_file := "/srv/checker";
     getcwd := "/srv/checker";
     old_log := [ "2025-05-31 09:30:00,000 - URL: https://old.example.pl - Result: Dostępne ceny mieszkań" ];
     parse_args := Parsed "https://example-developer.pl/oferta";
     GOOGLE_API_KEY := key;
     run := fun _ => inr {| final_result := result |};
     clock := "2025-06-01 12:00:00,000" |}.

(** The same invocation with an agent that fails. *)
Definition failing_env : Env :=
  {| dirname_abspath_file := "/srv/checker";
     abspath_dirname_file := "/srv/checker";
     getcwd := "/srv/checker";
     old_log := [];
     parse_args := Parsed "https://example-developer.pl/oferta";
     GOOGLE_API_KEY := Some "secret";
     run := fun _ => inl (LibraryError "browser closed");
     clock := "2025-06-01 12:00:00,000" |}.


Definition is_open (e : Event) : bool :=
  match e with EOpen _ _ => true | _ => false end.

(** The same environment with another command line. *)
Definition with_parse_args (env : Env) (p : ParseOutcome) : Env :=
  {| dirname_abspath_file := dirname_abspath_file env;
     abspath_dirname_file := abspath_dirname_file env;
     getcwd := getcwd env;
     old_log := old_log env;
     parse_args := p;
     GOOGLE_API_KEY := GOOGLE_API_KEY env;
     run := run env;
     clock := clock env |}.

(** * Properties *)

Lemma truthy_Some (o : option string) :
  Py.truthy o = true -> exists c s, o = Some (String c s).
Proof.
  destruct o as [[|c s]|]; simpl; try discriminate.
  intros _. now exists c, s.
Qed.

Lemma falsy_cases (o : option string) :
  Py.truthy o = false -> o = None \/ o = Some EmptyString.
Proof.
  destruct o as [[|c s]|]; simpl; try discriminate; auto.
Qed.

(** Evaluate the script in an environment whose inputs the hypotheses fix:
    name the parts of the environment, make every truthy string a
    non-empty one, compute, and use what is known of the agent. *)
Ltac run_script env :=
  destruct env as [dir1 dir2 cwd old pa key rn clk];
  cbn [parse_args GOOGLE_API_KEY run] in *; subst;
  repeat match goal with
         | H : Py.truthy ?k = true |- _ =>
             let c := fresh "c" in
             let s := fresh "s" in
             destruct (truthy_Some k H) as (c & s & ->); clear H
         end;
  cbv in *;
  try match goal with
      | H : rn ?a = _ |- _ => rewrite H
      end;
  try reflexivity.

(** argparse leaves: nothing of [main] beyond the parser has run. *)
Lemma run_exits (env : Env) (code : Z) :
  parse_args env = Exits code ->
  run_process env =
    ({| trace := startup env ++ [EParseArgs];
        log_file := [];
        stderr := startup_stderr |},
     inl (SystemExit code)).
Proof. intros Hp. run_script env. Qed.

(** The credential is missing: line 48 raises. *)
Lemma run_no_key (env : Env) (url : string) :
  parse_args env = Parsed url ->
  Py.truthy (GOOGLE_API_KEY env) = false ->
  run_process env =
    ({| trace := startup env ++ [EParseArgs];
        log_file := [];
        stderr := startup_stderr |},
     inl (ValueError
            "GOOGLE_API_KEY environment variable not set or .env file not found.")).
Proof.
  intros Hp Hk.
  destruct (falsy_cases _ Hk) as [E | E]; run_script env.
Qed.

(** The agent's run raises: the exception leaves [main] at line 104. *)
Lemma run_raises (env : Env) (url : string) (e : PyExn) :
  parse_args env = Parsed url ->
  Py.truthy (GOOGLE_API_KEY env) = true ->
  run env (the_agent url) = inl e ->
  run_process env =
    ({| trace := startup env ++ configured url ++ [ERun (the_agent url)];
        log_file := [];
        stderr := startup_stderr |},
     inl e).
Proof. intros Hp Hk Hr. run_script env. Qed.

(** The agent returns a truthy final result: lines 116-121. *)
Lemma run_found (env : Env) (url : string) (h : AgentHistoryList) :
  parse_args env = Parsed url ->
  Py.truthy (GOOGLE_API_KEY env) = true ->
  run env (the_agent url) = inr h ->
  Py.truthy (final_result h) = true ->
  run_process env =
    ({| trace := startup env ++ configured url ++ awaited url h ++
                 report_found env url (fstr (final_result h));
        log_file := [ clock env ++ " - URL: " ++ url ++ " - Result: " ++
                      fstr (final_result h) ];
        stderr := startup_stderr ++
                  [ "INFO     [browser_use] 📄 Result: " ++ fstr (final_result h);
                    "INFO     [browser_use] ✅ Task completed";
                    "INFO     [browser_use] ✅ Successfully" ] |},
     inr tt).
Proof.
  intros Hp Hk Hr Hf. destruct h as [o]. cbn [final_result] in *.
  run_script env.
Qed.

(** The agent returns [None] or the empty string: lines 124-127. *)
Lemma run_nothing (env : Env) (url : string) (h : AgentHistoryList) :
  parse_args env = Parsed url ->
  Py.truthy (GOOGLE_API_KEY env) = true ->
  run env (the_agent url) = inr h ->
  Py.truthy (final_result h) = false ->
  run_process env =
    ({| trace := startup env ++ configured url ++ awaited url h ++
                 report_nothing env url;
        log_file := [ clock env ++ " - URL: " ++ url ++
                      " - Result: Brak dostępnych cen mieszkań" ];
        stderr := startup_stderr ++ [ "INFO     [browser_use] ❌ Task failed" ] |},
     inr tt).
Proof.
  intros Hp Hk Hr Hf. destruct h as [o]. cbn [final_result] in *.
  destruct (falsy_cases _ Hf) as [E | E]; subst o; run_script env.
Qed.

(** The path an invocation takes is decided by its environment. *)
Lemma path_of (env : Env) : Path env.
Proof.
  destruct (parse_args env) as [url | code] eqn:Hp.
  2: now apply (path_exits env code).
  destruct (Py.truthy (GOOGLE_API_KEY env)) eqn:Hk.
  2: now apply (path_no_key env url).
  destruct (run env (the_agent url)) as [e | h] eqn:Hr.
  1: now apply (path_raises env url e).
  destruct (Py.truthy (final_result h)) eqn:Hf.
  - now apply (path_found env url h).
  - now apply (path_nothing env url h).
Qed.

(** ** Containment of text *)

Lemma prefix_app (p s : string) :
  String.prefix p s = true <-> exists rest, s = p ++ rest.
Proof.
  revert s. induction p as [|a p IH]; intros s.
  - split; [intros _; now exists s | intros _; now destruct s].
  - destruct s as [|b s]; simpl.
    + split; [discriminate | intros [rest H]; discriminate].
    + destruct (ascii_dec a b) as [-> | Hab].
      * rewrite IH. split; intros [rest H]; exists rest.
        -- now rewrite H.
        -- now injection H.
      * split; [discriminate | intros [rest H]].
        injection H as H1 H2. congruence.
Qed.

Lemma contains_unfold (needle hay : string) :
  Py.contains needle hay =
  String.prefix needle hay ||
  match hay with
  | EmptyString => false
  | String _ hay' => Py.contains needle hay'
  end.
Proof. destruct hay; reflexivity. Qed.

Lemma contains_Substring (needle hay : string) :
  Py.contains needle hay = true <-> Substring needle hay.
Proof.
  split.
  - induction hay as [|a hay IH]; rewrite contains_unfold; intros H;
      apply orb_true_iff in H; destruct H as [H | H]; try discriminate.
    + apply prefix_app in H. destruct H as [rest H]. now exists EmptyString, rest.
    + apply prefix_app in H. destruct H as [rest H]. now exists EmptyString, rest.
    + destruct (IH H) as (before & after & E).
      exists (String a before), after. simpl. now rewrite E.
  - intros (before & after & E). revert hay E.
    induction before as [|a before IH]; intros hay E; rewrite contains_unfold.
    + apply orb_true_iff. left. apply prefix_app. now exists after.
    + subst hay. simpl. apply orb_true_iff. right. now apply IH.
Qed.

Lemma not_contains_not_Substring (needle hay : string) :
  Py.contains needle hay = false -> ~ Substring needle hay.
Proof.
  intros H S. apply contains_Substring in S. congruence.
Qed.

Lemma Substring_app_l (needle hay before : string) :
  Substring needle hay -> Substring needle (before ++ hay).
Proof.
  intros (b & a & ->). exists (before ++ b), a.
  induction before as [|c before IH]; simpl; [reflexivity | now rewrite IH].
Qed.

Lemma Substring_prefix (needle rest : string) : Substring needle (needle ++ rest).
Proof. now exists EmptyString, rest. Qed.

Lemma Substring_suffix (before needle : string) : Substring needle (before ++ needle).
Proof.
  apply Substring_app_l. exists EmptyString, EmptyString. simpl.
  induction needle as [|c n IH]; simpl; [reflexivity | now rewrite <- IH].
Qed.

Ltac find_substring :=
  first [ apply Substring_prefix
        | apply Substring_suffix
        | apply Substring_app_l; find_substring ].

Lemma task_prompt_shape (url : string) :
  task_prompt url = task_head ++ url ++ task_tail.
Proof. reflexivity. Qed.

Lemma task_prompt_visit (url : string) :
  Substring ("Odwiedź stronę: " ++ url) (task_prompt url).
Proof.
  exists (Py.join_lines
            [ "Zadanie: Analiza cen mieszkań na stronie dewelopera";
              EmptyString;
              "1. " ]), task_tail.
  reflexivity.
Qed.

(** ** The reporter: a result was found *)

(** C1, as stated, fails: for the URL https://example-developer.pl/oferta
    and the agent result 450 000 PLN, no line the console handler received
    contains the URL, so the two sinks do not both hold a record with the
    result and the URL. *)
Lemma console_record_lacks_url :
  run (example_env (Some "secret") (Some "450 000 PLN"))
      (the_agent "https://example-developer.pl/oferta") =
    inr {| final_result := Some "450 000 PLN" |} /\
  ~ both_sinks_receive
      (fst (run_process (example_env (Some "secret") (Some "450 000 PLN"))))
      (fun line => Substring "450 000 PLN" line /\
                   Substring "https://example-developer.pl/oferta" line).
Proof.
  split; [reflexivity |].
  intros [(line & Hin & _ & Hurl) _].
  revert Hurl. apply not_contains_not_Substring.
  vm_compute in Hin.
  repeat (destruct Hin as [<- | Hin]; [reflexivity |]).
  contradiction.
Qed.

(** C1 (amended): when the agent's run returns a non-empty final result, the
    results file receives exactly one record, at level INFO, whose line is
    the time, then URL: the URL, then Result: the result, so it contains
    the result string and the original URL; the console handler receives a
    record whose text is the result after a fixed prefix, without the URL
    interpolated. *)
Theorem found_result_is_reported
    (env : Env) (url result : string) (h : AgentHistoryList) :
  parse_args env = Parsed url ->
  Py.truthy (GOOGLE_API_KEY env) = true ->
  run env (the_agent url) = inr h ->
  final_result h = Some result ->
  result <> EmptyString ->
  let w := fst (run_process env) in
  sink file_handler (trace w) =
    [ makeRecord file_logger INFO (clock env)
        ("URL: " ++ url ++ " - Result: " ++ result) ] /\
  log_file w = [ clock env ++ " - " ++ "URL: " ++ url ++ " - Result: " ++ result ] /\
  (exists line, In line (log_file w) /\
     Substring ("URL: " ++ url ++ " - Result: " ++ result) line /\
     Substring result line /\ Substring url line) /\
  In (makeRecord logger INFO (clock env) ("📄 Result: " ++ result))
     (sink console_handler (trace w)) /\
  (exists line, In line (stderr w) /\
     line = "INFO     [browser_use] 📄 Result: " ++ result /\
     Substring result line).
Proof.
  intros Hp Hk Hr Hres Hne w.
  assert (Hf : Py.truthy (final_result h) = true).
  { rewrite Hres. destruct result; [contradiction | reflexivity]. }
  subst w. rewrite (run_found env url h Hp Hk Hr Hf), Hres.
  cbn [fst trace log_file stderr fstr].
  repeat split.
  - exists (clock env ++ " - " ++ "URL: " ++ url ++ " - Result: " ++ result).
    repeat split.
    + now left.
    + find_substring.
    + find_substring.
    + find_substring.
  - simpl. do 2 right. now left.
  - exists ("INFO     [browser_use] 📄 Result: " ++ result). repeat split.
    + apply in_or_app. right. now left.
    + find_substring.
Qed.

Lemma found_result_is_reported_witness :
  exists line,
    In line (log_file (fst (run_process
               (example_env (Some "secret") (Some "450 000 PLN"))))) /\
    Substring "URL: https://example-developer.pl/oferta - Result: 450 000 PLN" line.
Proof.
  destruct (found_result_is_reported
              (example_env (Some "secret") (Some "450 000 PLN"))
              "https://example-developer.pl/oferta" "450 000 PLN"
              {| final_result := Some "450 000 PLN" |}
              eq_refl eq_refl eq_refl eq_refl)
    as (_ & _ & (line & Hin & Hsub & _) & _).
  - discriminate.
  - exists line. split; [exact Hin | exact Hsub].
Defined.

(** ** The reporter: nothing was found *)

(** C2, as stated, fails: when the agent returns no result, no line the
    console handler received contains the text Brak dostępnych cen mieszkań;
    the console gets another fixed warning. *)
Lemma console_lacks_the_literal :
  run (example_env (Some "secret") None)
      (the_agent "https://example-developer.pl/oferta") =
    inr {| final_result := None |} /\
  ~ both_sinks_receive
      (fst (run_process (example_env (Some "secret") None)))
      (Substring "Brak dostępnych cen mieszkań").
Proof.
  split; [reflexivity |].
  intros [(line & Hin & Hsub) _].
  revert Hsub. apply not_contains_not_Substring.
  vm_compute in Hin.
  repeat (destruct Hin as [<- | Hin]; [reflexivity |]).
  contradiction.
Qed.

(** C2 (amended): when the agent's run returns an empty or absent final
    result, the results file receives exactly one record, at level WARNING,
    whose line ends with the fixed text Result: Brak dostępnych cen mieszkań
    after the URL, and the console handler receives the fixed warning
    Task failed; neither depends on the agent's raw output. *)
Theorem nothing_found_is_reported
    (env : Env) (url : string) (h : AgentHistoryList) :
  parse_args env = Parsed url ->
  Py.truthy (GOOGLE_API_KEY env) = true ->
  run env (the_agent url) = inr h ->
  Py.truthy (final_result h) = false ->
  let w := fst (run_process env) in
  sink file_handler (trace w) =
    [ makeRecord file_logger WARNING (clock env)
        ("URL: " ++ url ++ " - Result: Brak dostępnych cen mieszkań") ] /\
  log_file w =
    [ clock env ++ " - " ++ "URL: " ++ url ++
      " - Result: Brak dostępnych cen mieszkań" ] /\
  (exists line, In line (log_file w) /\
     Substring "Brak dostępnych cen mieszkań" line /\ Substring url line) /\
  sink console_handler (trace w) =
    (sink console_handler (startup env) ++
     [ makeRecord logger WARNING (clock env) "❌ Task failed" ])%list /\
  stderr w = (startup_stderr ++ [ "INFO     [browser_use] ❌ Task failed" ])%list.
Proof.
  intros Hp Hk Hr Hf w. subst w.
  rewrite (run_nothing env url h Hp Hk Hr Hf).
  cbn [fst trace log_file stderr].
  repeat split.
  exists (clock env ++ " - " ++ "URL: " ++ url ++
          " - Result: Brak dostępnych cen mieszkań").
  repeat split.
  - now left.
  - do 4 apply Substring_app_l. now exists " - Result: ", EmptyString.
  - find_substring.
Qed.

Lemma nothing_found_is_reported_witness :
  log_file (fst (run_process (example_env (Some "secret") (Some EmptyString)))) =
    [ "2025-06-01 12:00:00,000 - URL: https://example-developer.pl/oferta - Result: Brak dostępnych cen mieszkań" ] /\
  stderr (fst (run_process (example_env (Some "secret") (Some EmptyString)))) =
    (startup_stderr ++ [ "INFO     [browser_use] ❌ Task failed" ])%list.
Proof.
  destruct (nothing_found_is_reported
              (example_env (Some "secret") (Some EmptyString))
              "https://example-developer.pl/oferta"
              {| final_result := Some EmptyString |}
              eq_refl eq_refl eq_refl eq_refl)
    as (_ & Hfile & _ & _ & Herr).
  split; [exact Hfile | exact Herr].
Defined.

(** ** The credential check *)

(** C3: with GOOGLE_API_KEY unset or empty the script ends by raising, and
    by then it has built no model client, no browser profile, no browser and
    no agent, and has run nothing; when the command line was accepted the
    exception is the ValueError of line 48 and the exit status is 1. *)
Theorem missing_key_raises_before_construction (env : Env) :
  Py.truthy (GOOGLE_API_KEY env) = false ->
  let w := fst (run_process env) in
  let r := snd (run_process env) in
  (exists e, r = inl e) /\
  (forall url, parse_args env = Parsed url ->
     r = inl (ValueError
                "GOOGLE_API_KEY environment variable not set or .env file not found.") /\
     exit_status r = 1) /\
  filter is_construction (trace w) = [] /\
  count_runs (trace w) = 0%nat.
Proof.
  intros Hk w r. subst w r.
  destruct (parse_args env) as [url | code] eqn:Hp.
  - rewrite (run_no_key env url Hp Hk). cbn [fst snd trace].
    split; [eauto |]. split; [| now split].
    intros url' _. now split.
  - rewrite (run_exits env code Hp). cbn [fst snd trace].
    split; [eauto |]. split; [| now split].
    intros url' E. discriminate E.
Qed.

Lemma missing_key_raises_before_construction_witness :
  snd (run_process (example_env None (Some "450 000 PLN"))) =
    inl (ValueError
           "GOOGLE_API_KEY environment variable not set or .env file not found.") /\
  filter is_construction
    (trace (fst (run_process (example_env None (Some "450 000 PLN"))))) = [].
Proof.
  destruct (missing_key_raises_before_construction
              (example_env None (Some "450 000 PLN")) eq_refl)
    as (_ & Hv & Hc & _).
  split; [exact (proj1 (Hv _ eq_refl)) | exact Hc].
Defined.

(** ** The task handed to the agent *)

Lemma In_configured_agent (url : string) (a : Agent) (rest : list Event) :
  (forall b, ~ In (ENewAgent b) rest) ->
  In (ENewAgent a) (configured url ++ rest) -> a = the_agent url.
Proof.
  intros Hrest H. apply in_app_or in H. destruct H as [H | H].
  - simpl in H.
    repeat (destruct H as [H | H]; [try discriminate |]); try contradiction.
    now injection H as <-.
  - now apply Hrest in H.
Qed.

Lemma In_startup_not_agent (env : Env) (e : Event) :
  In e (startup env) -> is_construction e = false /\ is_run e = false.
Proof.
  intros H. simpl in H.
  repeat (destruct H as [<- | H]; [now split |]). contradiction.
Qed.

(** C4: for every non-empty URL the command line yields, with the
    credential present, an agent is built and run, and the task of every
    agent built or run is the template with that URL at its place: the text
    up to Odwiedź stronę:, the URL verbatim, the rest of the template. *)
Theorem task_prompt_contains_url (env : Env) (url : string) :
  url <> EmptyString ->
  parse_args env = Parsed url ->
  Py.truthy (GOOGLE_API_KEY env) = true ->
  let tr := trace (fst (run_process env)) in
  (exists a, In (ENewAgent a) tr /\ In (ERun a) tr) /\
  (forall a, In (ENewAgent a) tr \/ In (ERun a) tr ->
     task a = task_head ++ url ++ task_tail /\
     Substring ("Odwiedź stronę: " ++ url) (task a) /\
     Substring url (task a)).
Proof.
  intros _ Hp Hk tr.
  assert (Hshape : forall a, a = the_agent url ->
            task a = task_head ++ url ++ task_tail /\
            Substring ("Odwiedź stronę: " ++ url) (task a) /\
            Substring url (task a)).
  { intros a ->. cbn [task the_agent]. repeat split.
    - apply task_prompt_visit.
    - rewrite task_prompt_shape. find_substring. }
  assert (Htr : exists rest,
             tr = (startup env ++ configured url ++ ERun (the_agent url) :: rest)%list /\
             forall e, In e rest -> is_construction e = false /\ is_run e = false).
  { subst tr.
    destruct (run env (the_agent url)) as [e | h] eqn:Hr.
    - rewrite (run_raises env url e Hp Hk Hr). exists []. split; [reflexivity |].
      intros ? [].
    - destruct (Py.truthy (final_result h)) eqn:Hf.
      + rewrite (run_found env url h Hp Hk Hr Hf). eexists. split; [reflexivity |].
        intros e H. simpl in H.
        repeat (destruct H as [<- | H]; [now split |]). contradiction.
      + rewrite (run_nothing env url h Hp Hk Hr Hf). eexists. split; [reflexivity |].
        intros e H. simpl in H.
        repeat (destruct H as [<- | H]; [now split |]). contradiction. }
  destruct Htr as (rest & -> & Hrest). split.
  - exists (the_agent url). split; apply in_or_app; right; simpl; auto 10.
  - intros a H. apply Hshape.
    destruct H as [H | H]; apply in_app_or in H; destruct H as [H | H].
    + apply In_startup_not_agent in H. now destruct H.
    + apply in_app_or in H. destruct H as [H | H].
      * apply (In_configured_agent url a []); [intros ? [] |].
        now rewrite app_nil_r.
      * destruct H as [H | H]; [discriminate |].
        apply Hrest in H. now destruct H.
    + apply In_startup_not_agent in H. now destruct H.
    + apply in_app_or in H. destruct H as [H | H].
      * simpl in H.
        repeat (destruct H as [H | H]; [discriminate |]). contradiction.
      * destruct H as [H | H]; [now injection H as <- |].
        apply Hrest in H. now destruct H.
Qed.

Lemma task_prompt_contains_url_witness :
  exists a,
    In (ENewAgent a)
       (trace (fst (run_process (example_env (Some "secret") None)))) /\
    Substring "Odwiedź stronę: https://example-developer.pl/oferta" (task a).
Proof.
  destruct (task_prompt_contains_url
              (example_env (Some "secret") None)
              "https://example-developer.pl/oferta")
    as ((a & Hnew & Hrun) & Hall).
  - discriminate.
  - reflexivity.
  - reflexivity.
  - exists a. split; [exact Hnew |].
    exact (proj1 (proj2 (Hall a (or_introl Hnew)))).
Defined.

(** ** The results file across invocations *)

(** The file holds what its handler received in this invocation, and the
    console stream what the console handler received. *)
Lemma streams_follow_sinks (env : Env) :
  let w := fst (run_process env) in
  log_file w = map file_fmt (sink file_handler (trace w)) /\
  stderr w = map console_fmt (sink console_handler (trace w)).
Proof.
  destruct (path_of env) as
    [code Hp | url Hp Hk | url e Hp Hk Hr | url h Hp Hk Hr Hf | url h Hp Hk Hr Hf].
  - rewrite (run_exits env code Hp). now split.
  - rewrite (run_no_key env url Hp Hk). now split.
  - rewrite (run_raises env url e Hp Hk Hr). now split.
  - rewrite (run_found env url h Hp Hk Hr Hf). now split.
  - rewrite (run_nothing env url h Hp Hk Hr Hf). now split.
Qed.

(** The world at the end does not depend on the file earlier runs left. *)
Lemma old_log_forgotten (env : Env) (old' : list string) :
  run_process (with_old_log env old') = run_process env.
Proof.
  destruct (path_of env) as
    [code Hp | url Hp Hk | url e Hp Hk Hr | url h Hp Hk Hr Hf | url h Hp Hk Hr Hf].
  - now rewrite (run_exits env code Hp),
      (run_exits (with_old_log env old') code Hp).
  - now rewrite (run_no_key env url Hp Hk),
      (run_no_key (with_old_log env old') url Hp Hk).
  - now rewrite (run_raises env url e Hp Hk Hr),
      (run_raises (with_old_log env old') url e Hp Hk Hr).
  - now rewrite (run_found env url h Hp Hk Hr Hf),
      (run_found (with_old_log env old') url h Hp Hk Hr Hf).
  - now rewrite (run_nothing env url h Hp Hk Hr Hf),
      (run_nothing (with_old_log env old') url h Hp Hk Hr Hf).
Qed.

(** C5: every invocation begins by opening the results file in mode w,
    which leaves it empty whatever it held; at the end the file holds the
    lines of the records its handler received in this invocation and nothing
    else, so it is the same whatever earlier runs had written. *)
Theorem results_file_is_truncated (env : Env) :
  let w := fst (run_process env) in
  hd_error (trace w) = Some (EOpen (log_filename env) mode_w) /\
  log_file (fst (open_log (log_filename env) mode_w (initial_world env))) = [] /\
  log_file w = map file_fmt (sink file_handler (trace w)) /\
  (forall old', log_file (fst (run_process (with_old_log env old'))) = log_file w).
Proof.
  intros w. subst w. split; [| split; [reflexivity | split]].
  - destruct (path_of env) as
      [code Hp | url Hp Hk | url e Hp Hk Hr | url h Hp Hk Hr Hf | url h Hp Hk Hr Hf].
    + now rewrite (run_exits env code Hp).
    + now rewrite (run_no_key env url Hp Hk).
    + now rewrite (run_raises env url e Hp Hk Hr).
    + now rewrite (run_found env url h Hp Hk Hr Hf).
    + now rewrite (run_nothing env url h Hp Hk Hr Hf).
  - apply streams_follow_sinks.
  - intros old'. now rewrite old_log_forgotten.
Qed.

(** ** The agent's run *)

(** C6: an exception raised by the agent's run leaves the script as it is:
    the invocation ends with that very exception, the run was attempted once
    and not again, the script neither slept nor asked for a final result,
    and the reporter wrote nothing to the results file or the console. *)
Theorem agent_failure_propagates (env : Env) (url : string) (e : PyExn) :
  parse_args env = Parsed url ->
  Py.truthy (GOOGLE_API_KEY env) = true ->
  run env (the_agent url) = inl e ->
  let w := fst (run_process env) in
  let r := snd (run_process env) in
  r = inl e /\
  ((forall code, e <> SystemExit code) -> exit_status r = 1) /\
  count_runs (trace w) = 1%nat /\
  filter is_sleep (trace w) = [] /\
  filter is_final_result (trace w) = [] /\
  sink file_handler (trace w) = [] /\
  log_file w = [] /\
  sink console_handler (trace w) = sink console_handler (startup env) /\
  stderr w = startup_stderr.
Proof.
  intros Hp Hk Hr w r. subst w r.
  rewrite (run_raises env url e Hp Hk Hr). cbn [fst snd trace log_file stderr].
  repeat split.
  intros Hne. destruct e as [msg | code | what]; try reflexivity.
  now destruct (Hne code).
Qed.

Lemma agent_failure_propagates_witness :
  snd (run_process failing_env) = inl (LibraryError "browser closed") /\
  count_runs (trace (fst (run_process failing_env))) = 1%nat /\
  log_file (fst (run_process failing_env)) = [].
Proof.
  destruct (agent_failure_propagates failing_env
              "https://example-developer.pl/oferta"
              (LibraryError "browser closed") eq_refl eq_refl eq_refl)
    as (Hexn & _ & Hruns & _ & _ & _ & Hfile & _).
  split; [exact Hexn | split; [exact Hruns | exact Hfile]].
Defined.

(** C7: a falsy final result is not an error: the reporter logs one record
    at level WARNING to the results file and one to the console, and the
    script ends without an exception, with exit status 0. *)
Theorem nothing_found_exits_normally
    (env : Env) (url : string) (h : AgentHistoryList) :
  parse_args env = Parsed url ->
  Py.truthy (GOOGLE_API_KEY env) = true ->
  run env (the_agent url) = inr h ->
  Py.truthy (final_result h) = false ->
  let w := fst (run_process env) in
  let r := snd (run_process env) in
  r = inr tt /\
  exit_status r = 0 /\
  (exists rec, In rec (sink file_handler (trace w)) /\ levelno rec = WARNING) /\
  (exists rec, In rec (sink console_handler (trace w)) /\ levelno rec = WARNING) /\
  List.length (log_file w) = 1%nat.
Proof.
  intros Hp Hk Hr Hf w r. subst w r.
  rewrite (run_nothing env url h Hp Hk Hr Hf). cbn [fst snd trace log_file].
  repeat split.
  - eexists. split; [simpl; left; reflexivity | reflexivity].
  - eexists. split; [simpl; do 2 right; left; reflexivity | reflexivity].
Qed.

Lemma nothing_found_exits_normally_witness :
  exit_status (snd (run_process (example_env (Some "secret") None))) = 0.
Proof.
  exact (proj1 (proj2 (nothing_found_exits_normally
                         (example_env (Some "secret") None)
                         "https://example-developer.pl/oferta"
                         {| final_result := None |}
                         eq_refl eq_refl eq_refl eq_refl))).
Defined.

(** No invocation runs the agent twice. *)
Lemma agent_runs_at_most_once (env : Env) :
  (count_runs (trace (fst (run_process env))) <= 1)%nat.
Proof.
  destruct (path_of env) as
    [code Hp | url Hp Hk | url e Hp Hk Hr | url h Hp Hk Hr Hf | url h Hp Hk Hr Hf].
  - rewrite (run_exits env code Hp). cbv. lia.
  - rewrite (run_no_key env url Hp Hk). cbv. lia.
  - rewrite (run_raises env url e Hp Hk Hr). cbv. lia.
  - rewrite (run_found env url h Hp Hk Hr Hf). cbv. lia.
  - rewrite (run_nothing env url h Hp Hk Hr Hf). cbv. lia.
Qed.

(** C8, as stated, fails: an invocation without the credential ends at
    line 48 and never calls the agent's run. *)
Lemma run_skipped_without_key :
  count_runs (trace (fst (run_process (example_env None (Some "450 000 PLN")))))
    <> 1%nat.
Proof. vm_compute. discriminate. Qed.

(** C8 (amended): in every invocation whose command line was accepted and
    whose credential is present, the agent's run is called exactly once;
    when it returns, the script prints a notice, sleeps 10 seconds, and only
    then asks for the final result and reports, whatever that result is:
    before the run there is no sleep, no final result and no record for the
    results file, and after the final result come only the reporter's
    records. *)
Theorem agent_runs_once_then_sleeps (env : Env) (url : string) :
  parse_args env = Parsed url ->
  Py.truthy (GOOGLE_API_KEY env) = true ->
  let tr := trace (fst (run_process env)) in
  count_runs tr = 1%nat /\
  forall h, run env (the_agent url) = inr h ->
    exists before report,
      tr = (before ++
            [ ERun (the_agent url);
              EPrint (Py.nl ++
                "Analysis complete - keeping browser window open for 10 seconds to view highlights...");
              ESleep 10;
              EFinalResult h ] ++
            report)%list /\
      filter (fun e => is_run e || is_sleep e || is_final_result e) before = [] /\
      sink file_handler before = [] /\
      forallb is_emit report = true /\
      List.length (sink file_handler report) = 1%nat.
Proof.
  intros Hp Hk tr. subst tr. split.
  - destruct (run env (the_agent url)) as [e | h] eqn:Hr.
    + now rewrite (run_raises env url e Hp Hk Hr).
    + destruct (Py.truthy (final_result h)) eqn:Hf.
      * now rewrite (run_found env url h Hp Hk Hr Hf).
      * now rewrite (run_nothing env url h Hp Hk Hr Hf).
  - intros h Hr. exists (startup env ++ configured url)%list.
    destruct (Py.truthy (final_result h)) eqn:Hf.
    + rewrite (run_found env url h Hp Hk Hr Hf).
      exists (report_found env url (fstr (final_result h))).
      cbn [fst trace]. rewrite <- app_assoc. now repeat split.
    + rewrite (run_nothing env url h Hp Hk Hr Hf).
      exists (report_nothing env url).
      cbn [fst trace]. rewrite <- app_assoc. now repeat split.
Qed.

Lemma agent_runs_once_then_sleeps_witness :
  count_runs (trace (fst (run_process (example_env (Some "secret") None)))) = 1%nat /\
  In (ESleep 10) (trace (fst (run_process (example_env (Some "secret") None)))).
Proof.
  destruct (agent_runs_once_then_sleeps
              (example_env (Some "secret") None)
              "https://example-developer.pl/oferta" eq_refl eq_refl)
    as (Hruns & Horder).
  split; [exact Hruns |].
  destruct (Horder {| final_result := None |} eq_refl)
    as (before & report & Htr & _).
  rewrite Htr. apply in_or_app. right. simpl. auto.
Defined.

(** ** The credential *)

(** C9: the value of GOOGLE_API_KEY matters to the script only through its
    truthiness: two invocations that differ only in the credential, both
    present and non-empty or both missing, end in the same world with the
    same outcome; and the model client the script builds is the fixed pair
    of a model name and a temperature, with no key in it. *)
Theorem key_matters_only_by_truthiness (env : Env) (k1 k2 : option string) :
  Py.truthy k1 = Py.truthy k2 ->
  run_process (with_key env k1) = run_process (with_key env k2) /\
  (forall c, In (ENewChatGoogle c) (trace (fst (run_process (with_key env k1)))) ->
     c = {| model := "gemini-2.5-flash"; temperature := 0.1 |}).
Proof.
  intros Hk12. split.
  - destruct (path_of (with_key env k1)) as
      [code Hp | url Hp Hk | url e Hp Hk Hr | url h Hp Hk Hr Hf | url h Hp Hk Hr Hf];
      assert (Hk2 := Hk12); cbn [GOOGLE_API_KEY with_key] in *.
    + now rewrite (run_exits (with_key env k1) code Hp),
        (run_exits (with_key env k2) code Hp).
    + rewrite Hk in Hk2. symmetry in Hk2.
      now rewrite (run_no_key (with_key env k1) url Hp Hk),
        (run_no_key (with_key env k2) url Hp Hk2).
    + rewrite Hk in Hk2. symmetry in Hk2.
      now rewrite (run_raises (with_key env k1) url e Hp Hk Hr),
        (run_raises (with_key env k2) url e Hp Hk2 Hr).
    + rewrite Hk in Hk2. symmetry in Hk2.
      now rewrite (run_found (with_key env k1) url h Hp Hk Hr Hf),
        (run_found (with_key env k2) url h Hp Hk2 Hr Hf).
    + rewrite Hk in Hk2. symmetry in Hk2.
      now rewrite (run_nothing (with_key env k1) url h Hp Hk Hr Hf),
        (run_nothing (with_key env k2) url h Hp Hk2 Hr Hf).
  - intros c.
    destruct (path_of (with_key env k1)) as
      [code Hp | url Hp Hk | url e Hp Hk Hr | url h Hp Hk Hr Hf | url h Hp Hk Hr Hf].
    + rewrite (run_exits _ code Hp). cbn [fst trace]. simpl.
      intros H. repeat (destruct H as [H | H]; [discriminate |]). contradiction.
    + rewrite (run_no_key _ url Hp Hk). cbn [fst trace]. simpl.
      intros H. repeat (destruct H as [H | H]; [discriminate |]). contradiction.
    + rewrite (run_raises _ url e Hp Hk Hr). cbn [fst trace]. simpl.
      intros H.
      repeat (destruct H as [H | H]; [try discriminate |]); try contradiction.
      now injection H as <-.
    + rewrite (run_found _ url h Hp Hk Hr Hf). cbn [fst trace]. simpl.
      intros H.
      repeat (destruct H as [H | H]; [try discriminate |]); try contradiction.
      now injection H as <-.
    + rewrite (run_nothing _ url h Hp Hk Hr Hf). cbn [fst trace]. simpl.
      intros H.
      repeat (destruct H as [H | H]; [try discriminate |]); try contradiction.
      now injection H as <-.
Qed.

Lemma key_matters_only_by_truthiness_witness :
  run_process (with_key (example_env None (Some "450 000 PLN")) (Some "key-of-alice")) =
  run_process (with_key (example_env None (Some "450 000 PLN")) (Some "key-of-bob")).
Proof.
  exact (proj1 (key_matters_only_by_truthiness
                  (example_env None (Some "450 000 PLN"))
                  (Some "key-of-alice") (Some "key-of-bob") eq_refl)).
Defined.

(** ** One record per completed run *)

(** C10: an invocation in which main ends without an exception has written
    exactly one record to the results file: the file handler received one
    record and the file holds one line. *)
Theorem completed_run_writes_one_record (env : Env) :
  snd (run_process env) = inr tt ->
  List.length (sink file_handler (trace (fst (run_process env)))) = 1%nat /\
  List.length (log_file (fst (run_process env))) = 1%nat.
Proof.
  destruct (path_of env) as
    [code Hp | url Hp Hk | url e Hp Hk Hr | url h Hp Hk Hr Hf | url h Hp Hk Hr Hf].
  - rewrite (run_exits env code Hp). discriminate.
  - rewrite (run_no_key env url Hp Hk). discriminate.
  - rewrite (run_raises env url e Hp Hk Hr). cbn [snd]. intros E.
    (* the agent raised: main did not complete *)
    discriminate E.
  - rewrite (run_found env url h Hp Hk Hr Hf). now split.
  - rewrite (run_nothing env url h Hp Hk Hr Hf). now split.
Qed.

Lemma completed_run_writes_one_record_witness :
  List.length
    (log_file (fst (run_process
       (example_env (Some "secret") (Some "450 000 PLN"))))) = 1%nat.
Proof.
  exact (proj2 (completed_run_writes_one_record
                  (example_env (Some "secret") (Some "450 000 PLN")) eq_refl)).
Defined.

(** * Further properties of the script *)

(** ** The results file and the way the script ends *)


(** X2: whenever the agent's run returns, main completes and the exit status
    is 0, whether the final result is truthy or not: the exit status does
    not tell a found price from none. *)
Theorem exit_status_ignores_result
    (env : Env) (url : string) (h : AgentHistoryList) :
  parse_args env = Parsed url ->
  Py.truthy (GOOGLE_API_KEY env) = true ->
  run env (the_agent url) = inr h ->
  snd (run_process env) = inr tt /\ exit_status (snd (run_process env)) = 0.
Proof.
  intros Hp Hk Hr. destruct (Py.truthy (final_result h)) eqn:Hf.
  - rewrite (run_found env url h Hp Hk Hr Hf). now split.
  - rewrite (run_nothing env url h Hp Hk Hr Hf). now split.
Qed.

Lemma exit_status_ignores_result_witness :
  exit_status (snd (run_process (example_env (Some "secret") (Some "450 000 PLN")))) = 0.
Proof.
  exact (proj2 (exit_status_ignores_result
                  (example_env (Some "secret") (Some "450 000 PLN"))
                  "https://example-developer.pl/oferta"
                  {| final_result := Some "450 000 PLN" |}
                  eq_refl eq_refl eq_refl)).
Defined.

(** X12: a command line argparse rejects ends the script with argparse's
    own exit code before the credential is looked at: the outcome is the
    same with and without GOOGLE_API_KEY, and nothing was built or run. *)
Theorem rejected_command_line_wins (env : Env) (code : Z) :
  parse_args env = Exits code ->
  snd (run_process env) = inl (SystemExit code) /\
  exit_status (snd (run_process env)) = code /\
  (forall k, run_process (with_key env k) = run_process env) /\
  filter is_construction (trace (fst (run_process env))) = [] /\
  count_runs (trace (fst (run_process env))) = 0%nat.
Proof.
  intros Hp. rewrite (run_exits env code Hp). cbn [fst snd trace].
  split; [reflexivity |]. split; [reflexivity |]. split; [| now split].
  intros k. now rewrite (run_exits (with_key env k) code Hp).
Qed.

Lemma rejected_command_line_wins_witness :
  exit_status
    (snd (run_process
       (with_parse_args (example_env None None) (Exits 2)))) = 2.
Proof.
  exact (proj1 (proj2 (rejected_command_line_wins
                         (with_parse_args (example_env None None) (Exits 2))
                         2 eq_refl))).
Defined.

(** ** The two loggers *)



(** X5: the results file does not show which branch wrote it.  The task
    asks the agent to answer Brak dostępnych cen mieszkań when it finds no
    price; a run with that answer takes the success branch and leaves the
    same file as a run whose agent returned nothing, which takes the
    warning branch.  The records differ in level and the console differs. *)
Theorem results_file_hides_the_branch
    (env1 env2 : Env) (url : string) (h1 h2 : AgentHistoryList) :
  parse_args env1 = Parsed url ->
  parse_args env2 = Parsed url ->
  Py.truthy (GOOGLE_API_KEY env1) = true ->
  Py.truthy (GOOGLE_API_KEY env2) = true ->
  clock env1 = clock env2 ->
  run env1 (the_agent url) = inr h1 ->
  final_result h1 = Some "Brak dostępnych cen mieszkań" ->
  run env2 (the_agent url) = inr h2 ->
  Py.truthy (final_result h2) = false ->
  log_file (fst (run_process env1)) = log_file (fst (run_process env2)) /\
  sink file_handler (trace (fst (run_process env1))) <>
    sink file_handler (trace (fst (run_process env2))) /\
  stderr (fst (run_process env1)) <> stderr (fst (run_process env2)).
Proof.
  intros Hp1 Hp2 Hk1 Hk2 Hclk Hr1 Hres Hr2 Hf2.
  assert (Hf1 : Py.truthy (final_result h1) = true) by now rewrite Hres.
  rewrite (run_found env1 url h1 Hp1 Hk1 Hr1 Hf1), Hres,
    (run_nothing env2 url h2 Hp2 Hk2 Hr2 Hf2).
  cbn [fst trace log_file stderr fstr]. rewrite Hclk.
  split; [reflexivity |]. split.
  - simpl. intros E. injection E as E. discriminate E.
  - intros E. apply (f_equal (@List.length string)) in E.
    rewrite !length_app in E. simpl in E. lia.
Qed.

Lemma results_file_hides_the_branch_witness :
  log_file (fst (run_process
     (example_env (Some "secret") (Some "Brak dostępnych cen mieszkań")))) =
  log_file (fst (run_process (example_env (Some "secret") None))).
Proof.
  exact (proj1 (results_file_hides_the_branch
                  (example_env (Some "secret") (Some "Brak dostępnych cen mieszkań"))
                  (example_env (Some "secret") None)
                  "https://example-developer.pl/oferta"
                  {| final_result := Some "Brak dostępnych cen mieszkań" |}
                  {| final_result := None |}
                  eq_refl eq_refl eq_refl eq_refl eq_refl
                  eq_refl eq_refl eq_refl eq_refl)).
Defined.



(** ** The task *)

Lemma append_length (a b : string) :
  String.length (a ++ b) = (String.length a + String.length b)%nat.
Proof. induction a as [|c a IH]; simpl; [reflexivity | now rewrite IH]. Qed.

Lemma append_inv_head (a b c : string) : a ++ b = a ++ c -> b = c.
Proof.
  induction a as [|x a IH]; simpl; intros H; [exact H |].
  injection H as H. now apply IH.
Qed.

Lemma append_inv_tail (a b c : string) : a ++ c = b ++ c -> a = b.
Proof.
  revert b. induction a as [|x a IH]; intros [|y b] H; simpl in H.
  - reflexivity.
  - apply (f_equal String.length) in H. simpl in H.
    rewrite append_length in H. lia.
  - apply (f_equal String.length) in H. simpl in H.
    rewrite append_length in H. lia.
  - injection H as -> H. f_equal. now apply IH.
Qed.

(** X7: the URL can be read back from the task: different URLs give
    different tasks, so no two URLs hand the agent the same instructions. *)
Theorem task_prompt_tells_urls_apart (url1 url2 : string) :
  url1 <> url2 -> task_prompt url1 <> task_prompt url2.
Proof.
  intros Hne E. apply Hne.
  rewrite !task_prompt_shape in E.
  apply append_inv_head in E. now apply append_inv_tail in E.
Qed.

Lemma task_prompt_tells_urls_apart_witness :
  "https://example-developer.pl/oferta" <> "https://example-developer.pl/oferta/" /\
  task_prompt "https://example-developer.pl/oferta" <>
  task_prompt "https://example-developer.pl/oferta/".
Proof.
  assert (H : "https://example-developer.pl/oferta" <>
              "https://example-developer.pl/oferta/") by discriminate.
  split; [exact H |].
  exact (task_prompt_tells_urls_apart
           "https://example-developer.pl/oferta"
           "https://example-developer.pl/oferta/" H).
Defined.

(** ** What every invocation does first, and what it builds *)

(** X8: every invocation opens exactly one file, in mode w, and the path it
    prints after Log file will be saved to: is the path it opened. *)
Theorem announced_log_path_is_the_path_opened (env : Env) :
  let tr := trace (fst (run_process env)) in
  exists path,
    filter is_open tr = [EOpen path mode_w] /\
    In (EPrint ("Log file will be saved to: " ++ path)) tr.
Proof.
  intros tr. subst tr. exists (log_filename env).
  destruct (path_of env) as
    [code Hp | url Hp Hk | url e Hp Hk Hr | url h Hp Hk Hr Hf | url h Hp Hk Hr Hf].
  - rewrite (run_exits env code Hp). cbn [fst trace].
    split; [reflexivity | apply in_or_app; left; simpl; auto 10].
  - rewrite (run_no_key env url Hp Hk). cbn [fst trace].
    split; [reflexivity | apply in_or_app; left; simpl; auto 10].
  - rewrite (run_raises env url e Hp Hk Hr). cbn [fst trace].
    split; [reflexivity | apply in_or_app; left; simpl; auto 10].
  - rewrite (run_found env url h Hp Hk Hr Hf). cbn [fst trace].
    split; [reflexivity | apply in_or_app; left; simpl; auto 10].
  - rewrite (run_nothing env url h Hp Hk Hr Hf). cbn [fst trace].
    split; [reflexivity | apply in_or_app; left; simpl; auto 10].
Qed.

(** X9: an invocation builds either nothing or, in this order, one model
    client, one browser profile, one browser on that profile with a visible
    window, and one agent on that client and that browser; of all this only
    the agent's task depends on the invocation. *)
Theorem objects_built_are_fixed (env : Env) :
  let built := filter is_construction (trace (fst (run_process env))) in
  built = [] \/
  exists url,
    parse_args env = Parsed url /\
    built =
      [ ENewChatGoogle {| model := "gemini-2.5-flash"; temperature := 0.1 |};
        ENewBrowserProfile
          {| storage_state := "cookies.json";
             wait_for_network_idle_page_load_time := 5.0;
             highlight_elements := true;
             highlight_clicks := true;
             debug := true |};
        ENewBrowser
          {| browser_profile :=
               {| storage_state := "cookies.json";
                  wait_for_network_idle_page_load_time := 5.0;
                  highlight_elements := true;
                  highlight_clicks := true;
                  debug := true |};
             headless := false |};
        ENewAgent
          {| task := task_prompt url;
             llm := {| model := "gemini-2.5-flash"; temperature := 0.1 |};
             browser :=
               {| browser_profile :=
                    {| storage_state := "cookies.json";
                       wait_for_network_idle_page_load_time := 5.0;
                       highlight_elements := true;
                       highlight_clicks := true;
                       debug := true |};
                  headless := false |} |} ].
Proof.
  intros built. subst built.
  destruct (path_of env) as
    [code Hp | url Hp Hk | url e Hp Hk Hr | url h Hp Hk Hr Hf | url h Hp Hk Hr Hf].
  - left. now rewrite (run_exits env code Hp).
  - left. now rewrite (run_no_key env url Hp Hk).
  - right. exists url. now rewrite (run_raises env url e Hp Hk Hr).
  - right. exists url. now rewrite (run_found env url h Hp Hk Hr Hf).
  - right. exists url. now rewrite (run_nothing env url h Hp Hk Hr Hf).
Qed.


(** X11: the 10-second pause and the request for the final result happen
    exactly in the invocations in which main completes, once each; an
    invocation that raises has neither slept nor asked. *)
Theorem pause_exactly_in_completed_runs (env : Env) :
  let tr := trace (fst (run_process env)) in
  match snd (run_process env) with
  | inr _ =>
      filter is_sleep tr = [ESleep 10] /\
      List.length (filter is_final_result tr) = 1%nat
  | inl _ =>
      filter is_sleep tr = [] /\ filter is_final_result tr = []
  end.
Proof.
  intros tr. subst tr.
  destruct (path_of env) as
    [code Hp | url Hp Hk | url e Hp Hk Hr | url h Hp Hk Hr Hf | url h Hp Hk Hr Hf].
  - now rewrite (run_exits env code Hp).
  - now rewrite (run_no_key env url Hp Hk).
  - now rewrite (run_raises env url e Hp Hk Hr).
  - now rewrite (run_found env url h Hp Hk Hr Hf).
  - now rewrite (run_nothing env url h Hp Hk Hr Hf).
Qed.
